(** * rocket-loadavg-api: a shallow embedding of [src/main.rs]

    The program reads the host's load averages through the libc
    [getloadavg] function and serves them as JSON on [GET /loadavg]
    with Rocket 0.3.  [f64] / [c_double] is modelled by Rocq's primitive
    binary64 floats. *)

From Stdlib Require Import Bool Floats ZArith List String Ascii Lia.
Import ListNotations.
Open Scope list_scope.
Open Scope bool_scope.
Set Warnings "-register-all,-inexact-float".


Definition c_double := float.
Definition f64 := float.
Definition c_int := Z.

Definition zero : f64 := 0%float.

(** ** The host operating system

    The load-average facility of the OS: either absent (the call fails), or
    available with the samples it currently reports (at most three on
    Unix systems, but nothing constrains their number or their values). *)
Inductive os_loadavg :=
| Unsupported
| Available (samples : list c_double).

(** The observable world outside the process. *)
Record world := mk_world { w_os : os_loadavg }.

(** libc's [int getloadavg(double loadavg[], int nelem)]: on failure it
    returns -1 and writes nothing; otherwise it writes the first
    [min nelem (available samples)] entries of [loadavg] and returns how
    many it wrote.  A write past the end of the caller's buffer is
    undefined behaviour: [None]. *)
Definition getloadavg_c (os : os_loadavg) (buf : list c_double) (nelem : c_int)
  : option (list c_double * c_int) :=
  if Z.ltb (Z.of_nat (List.length buf)) nelem then None
  else match os with
       | Unsupported => Some (buf, (-1)%Z)
       | Available s =>
           let k := Nat.min (Z.to_nat nelem) (List.length s) in
           Some (firstn k s ++ skipn k buf, Z.of_nat k)
       end.

(** ** A state monad with panics

    [St A] threads the world; [None] is a Rust panic (or undefined
    behaviour at the FFI boundary), after which no value is produced. *)
Definition St (A : Type) := world -> option A * world.

Definition ret {A} (a : A) : St A := fun w => (Some a, w).

Definition bind {A B} (m : St A) (f : A -> St B) : St B :=
  fun w => match m w with
           | (Some a, w') => f a w'
           | (None, w') => (None, w')
           end.

Notation "'do' x <- c1 ; c2" := (bind c1 (fun x => c2))
  (at level 60, x name, c1 at next level, right associativity).

Definition panic {A} : St A := fun w => (None, w).

(** ** [extern { fn getloadavg(load_avg: *mut c_double, load_avg_len: c_int); }]

    The Rust declaration has no return type: the count (or -1) that
    libc returns is dropped, only the effect on the buffer is seen. *)
Definition getloadavg (load_avg : list c_double) (load_avg_len : c_int)
  : St (list c_double) :=
  fun w => match getloadavg_c (w_os w) load_avg load_avg_len with
           | Some (buf, _) => (Some buf, w)
           | None => (None, w)
           end.

(** Rust's [a[i]] on an array: panics out of bounds. *)
Definition index (a : list f64) (i : nat) : St f64 :=
  match nth_error a i with
  | Some x => ret x
  | None => panic
  end.

(** ** [struct LoadAvg] and [LoadAvg::new] *)
Record LoadAvg := mk_LoadAvg { last : f64; last5 : f64; last15 : f64 }.

Definition LoadAvg_new : St LoadAvg :=
  let lavgs : list c_double := [zero; zero; zero] in
  do load_averages <- getloadavg lavgs 3%Z;
  do l0 <- index load_averages 0;
  do l1 <- index load_averages 1;
  do l2 <- index load_averages 2;
  ret {| last := l0; last5 := l1; last15 := l2 |}.

Definition LoadAvg_fields (la : LoadAvg) : list f64 :=
  [last la; last5 la; last15 la].

(** ** Serialization: [#[derive(Serialize)]] and serde_json

    serde_json writes a finite [f64] as a JSON number and a NaN or an
    infinity as [null]. *)
Inductive Json :=
| JNumber (x : f64)
| JNull
| JObject (kvs : list (string * Json)).

Definition serialize_f64 (x : f64) : Json :=
  if PrimFloat.is_finite x then JNumber x else JNull.

Definition LoadAvg_serialize (la : LoadAvg) : Json :=
  JObject [("last"%string, serialize_f64 (last la));
           ("last5"%string, serialize_f64 (last5 la));
           ("last15"%string, serialize_f64 (last15 la))].

(** ** HTTP requests and responses *)
Inductive Method := Get | Put | Post | Delete | Options | Head | Trace | Connect | Patch.

Definition Method_eqb (m1 m2 : Method) : bool :=
  match m1, m2 with
  | Get, Get | Put, Put | Post, Post | Delete, Delete | Options, Options
  | Head, Head | Trace, Trace | Connect, Connect | Patch, Patch => true
  | _, _ => false
  end.

Record Request := mk_Request { req_method : Method; req_path : string }.

(** A response body: none, the HTML page of Rocket's default catcher for
    a status code (its text is not modelled), or JSON. *)
Inductive Body :=
| BEmpty
| BCatcherPage (code : Z)
| BJson (j : Json).

Record Response := mk_Response { status : Z; content_type : option string; body : Body }.

(** [rocket_contrib::Json]'s responder: the value is serialized with
    [serde_json::to_string] (which cannot fail on a [LoadAvg]) and sent
    with status 200 and content type [application/json]. *)
Definition Json_respond (j : Json) : Response :=
  {| status := 200; content_type := Some "application/json"%string; body := BJson j |}.

(** Rocket's default catcher for an error status: an HTML page. *)
Definition default_catcher (code : Z) : Response :=
  {| status := code; content_type := Some "text/html"%string; body := BCatcherPage code |}.

Definition not_found : Response := default_catcher 404.
Definition bad_request : Response := default_catcher 400.

Definition strip_body (r : Response) : Response :=
  {| status := status r; content_type := content_type r; body := BEmpty |}.

(** ** [#[get("/loadavg")] fn loadavg() -> Json<LoadAvg>] *)
Definition loadavg : St Response :=
  do la <- LoadAvg_new;
  ret (Json_respond (LoadAvg_serialize la)).

(** ** Rocket 0.3 routing

    A URI path is matched segment by segment; Rocket's [Uri::segments]
    skips empty segments. *)
Fixpoint segments_aux (s : string) (cur : string) : list string :=
  match s with
  | EmptyString => if String.eqb cur "" then [] else [cur]
  | String c s' =>
      if Ascii.eqb c "/"%char
      then if String.eqb cur "" then segments_aux s' ""%string
           else cur :: segments_aux s' ""%string
      else segments_aux s' (String.append cur (String c EmptyString))
  end.

Definition segments (path : string) : list string := segments_aux path ""%string.

Fixpoint list_string_eqb (a b : list string) : bool :=
  match a, b with
  | [], [] => true
  | x :: a', y :: b' => String.eqb x y && list_string_eqb a' b'
  | _, _ => false
  end.

Record Route := mk_Route {
  route_method : Method;
  route_path : list string;
  route_handler : St Response }.

Record Rocket := mk_Rocket { mounts : list Route }.

(** [rocket::ignite()] *)
Definition ignite : Rocket := {| mounts := [] |}.

(** [.mount(base, routes)]: each route's path is prefixed by [base]. *)
Definition mount (base : string) (routes : list Route) (rk : Rocket) : Rocket :=
  {| mounts := mounts rk ++
       map (fun r => {| route_method := route_method r;
                        route_path := segments base ++ route_path r;
                        route_handler := route_handler r |}) routes |}.

(** [routes![loadavg]]: the route generated by [#[get("/loadavg")]]. *)
Definition loadavg_route : Route :=
  {| route_method := Get; route_path := segments "/loadavg"%string;
     route_handler := loadavg |}.

(** [main]: the launched instance. *)
Definition main_rocket : Rocket := mount "/"%string [loadavg_route] ignite.

(** The first mounted route matching the method and the path. *)
Fixpoint find_route (rs : list Route) (m : Method) (segs : list string) : option Route :=
  match rs with
  | [] => None
  | r :: rs' =>
      if Method_eqb (route_method r) m && list_string_eqb (route_path r) segs
      then Some r else find_route rs' m segs
  end.

Definition fmap {A B} (f : A -> B) (m : St A) : St B :=
  do a <- m; ret (f a).

(** [Rocket::route_and_process]: run the first matching route; when no
    route takes a HEAD request it is routed again as a GET; anything left
    unrouted goes to the 404 catcher. *)
Definition route_and_process (rk : Rocket) (m : Method) (segs : list string) : St Response :=
  match find_route (mounts rk) m segs with
  | Some r => route_handler r
  | None =>
      if Method_eqb m Head then
        match find_route (mounts rk) Get segs with
        | Some r => route_handler r
        | None => ret not_found
        end
      else ret not_found
  end.

(** [Rocket::dispatch]: route the request, then strip the body of the
    response to a HEAD request. *)
Definition dispatch (rk : Rocket) (req : Request) : St Response :=
  let resp := route_and_process rk (req_method req) (segments (req_path req)) in
  if Method_eqb (req_method req) Head then fmap strip_body resp else resp.

(** ** The request as hyper 0.10 hands it to Rocket

    The method is the raw token; the target is one of hyper's
    [RequestUri] forms. *)
Inductive RequestUri :=
| AbsolutePath (s : string)
| AbsoluteUri (s : string)
| Authority (s : string)
| Star.

Record HyperRequest := mk_HyperRequest { h_method : string; h_uri : RequestUri }.

(** [Method::from_hyp]: hyper's nine standard methods (case-sensitive
    tokens); an extension method has no Rocket counterpart. *)
Definition method_from_hyp (m : string) : option Method :=
  if String.eqb m "GET" then Some Get
  else if String.eqb m "PUT" then Some Put
  else if String.eqb m "POST" then Some Post
  else if String.eqb m "DELETE" then Some Delete
  else if String.eqb m "OPTIONS" then Some Options
  else if String.eqb m "HEAD" then Some Head
  else if String.eqb m "TRACE" then Some Trace
  else if String.eqb m "CONNECT" then Some Connect
  else if String.eqb m "PATCH" then Some Patch
  else None.

(** [Uri::path]: the target up to its query ([?]) or fragment ([#]). *)
Fixpoint uri_path (s : string) : string :=
  match s with
  | EmptyString => EmptyString
  | String c s' =>
      if Ascii.eqb c "?"%char || Ascii.eqb c "#"%char then EmptyString
      else String c (uri_path s')
  end.

(** [Request::from_hyp]: only a known method and an origin-form
    (absolute path) target make a Rocket request. *)
Definition request_from_hyp (h : HyperRequest) : option Request :=
  match method_from_hyp (h_method h), h_uri h with
  | Some m, AbsolutePath s => Some (mk_Request m (uri_path s))
  | _, _ => None
  end.

(** [Rocket]'s hyper handler: a request that cannot be converted gets
    the 400 catcher; the others are dispatched. *)
Definition handle (rk : Rocket) (h : HyperRequest) : St Response :=
  match request_from_hyp h with
  | Some req => dispatch rk req
  | None => ret bad_request
  end.

(** The server answering a sequence of requests. *)
Fixpoint serve (rk : Rocket) (reqs : list Request) : St (list Response) :=
  match reqs with
  | [] => ret []
  | r :: rs => do resp <- dispatch rk r; do resps <- serve rk rs; ret (resp :: resps)
  end.

(** ** Predicates used by the statements *)
Definition nonneg_finite (x : f64) : bool :=
  PrimFloat.is_finite x && PrimFloat.leb zero x.

Definition os_samples_ok (p : f64 -> bool) (os : os_loadavg) : bool :=
  match os with
  | Unsupported => true
  | Available s => forallb p s
  end.

Definition is_5xx (r : Response) : bool := Z.leb 500 (status r) && Z.ltb (status r) 600.

(** The value [LoadAvg::new] ends up with in slot [i]: what the OS wrote
    there, or the buffer's initial [0.0] when it wrote nothing. *)
Definition sample (os : os_loadavg) (i : nat) : f64 :=
  match os with
  | Unsupported => zero
  | Available s => nth i s zero
  end.

Definition get_loadavg_req : Request := mk_Request Get "/loadavg"%string.

(** ** Basic facts about the embedding *)

Lemma LoadAvg_new_spec (w : world) :
  LoadAvg_new w =
  (Some (mk_LoadAvg (sample (w_os w) 0) (sample (w_os w) 1) (sample (w_os w) 2)), w).
Proof.
  destruct w as [[|s]]; [reflexivity|].
  destruct s as [|a [|b [|c s]]]; reflexivity.
Qed.

Lemma sample_ok (p : f64 -> bool) (os : os_loadavg) (i : nat) :
  p zero = true -> os_samples_ok p os = true -> p (sample os i) = true.
Proof.
  intros Hz Hos. destruct os as [|s]; simpl in *; [exact Hz|].
  destruct (Nat.lt_ge_cases i (List.length s)) as [Hi|Hi].
  - apply (proj1 (forallb_forall p s)); [exact Hos|]. apply nth_In; exact Hi.
  - rewrite nth_overflow by exact Hi. exact Hz.
Qed.

Lemma loadavg_spec (w : world) :
  loadavg w =
  (Some (Json_respond (LoadAvg_serialize
     (mk_LoadAvg (sample (w_os w) 0) (sample (w_os w) 1) (sample (w_os w) 2)))), w).
Proof. unfold loadavg, bind. rewrite LoadAvg_new_spec. reflexivity. Qed.

Lemma dispatch_get_loadavg (w : world) :
  dispatch main_rocket get_loadavg_req w = loadavg w.
Proof. reflexivity. Qed.


Lemma mounts_main_rocket :
  mounts main_rocket =
  [{| route_method := Get; route_path := ["loadavg"%string]; route_handler := loadavg |}].
Proof. reflexivity. Qed.

Lemma find_route_main (m : Method) (segs : list string) :
  find_route (mounts main_rocket) m segs =
  if Method_eqb Get m && list_string_eqb ["loadavg"%string] segs
  then Some {| route_method := Get; route_path := ["loadavg"%string]; route_handler := loadavg |}
  else None.
Proof.
  rewrite mounts_main_rocket. simpl.
  destruct (Method_eqb Get m && list_string_eqb ["loadavg"%string] segs); reflexivity.
Qed.

Lemma Method_eqb_Get (m : Method) : Method_eqb Get m = true <-> m = Get.
Proof. destruct m; simpl; split; congruence. Qed.

(** The value the read yields in a given OS state. *)
Definition loadavg_read (os : os_loadavg) : LoadAvg :=
  mk_LoadAvg (sample os 0) (sample os 1) (sample os 2).

Lemma route_and_process_main (m : Method) (segs : list string) :
  route_and_process main_rocket m segs =
  if list_string_eqb ["loadavg"%string] segs && (Method_eqb Get m || Method_eqb m Head)
  then loadavg else ret not_found.
Proof.
  unfold route_and_process. rewrite !find_route_main.
  destruct (list_string_eqb _ segs); destruct m; reflexivity.
Qed.

(** What the launched server answers to a request in a given world. *)
Lemma dispatch_main_spec (req : Request) (w : world) :
  dispatch main_rocket req w =
  (Some (let r := if list_string_eqb ["loadavg"%string] (segments (req_path req)) &&
                     (Method_eqb Get (req_method req) || Method_eqb (req_method req) Head)
                  then Json_respond (LoadAvg_serialize (loadavg_read (w_os w)))
                  else not_found in
         if Method_eqb (req_method req) Head then strip_body r else r), w).
Proof.
  destruct req as [m path]. unfold dispatch. cbn [req_method req_path].
  rewrite route_and_process_main.
  destruct (list_string_eqb _ _); destruct m; cbn [Method_eqb andb orb];
    unfold fmap, bind; rewrite ?loadavg_spec; reflexivity.
Qed.

Lemma dispatch_main_total (req : Request) (w : world) :
  exists resp, dispatch main_rocket req w = (Some resp, w).
Proof. rewrite dispatch_main_spec. eexists; reflexivity. Qed.



(** The samples [getloadavg] writes into the buffer when asked for 3:
    none when the call fails, otherwise the first three the OS has. *)
Definition written_samples (os : os_loadavg) : list f64 :=
  match os with
  | Unsupported => []
  | Available s => firstn 3 s
  end.

Lemma forallb_nonneg_finite_zeros (n : nat) :
  forallb nonneg_finite (repeat zero n) = true.
Proof.
  assert (Hz : nonneg_finite zero = true) by (vm_compute; reflexivity).
  induction n as [|n IH]; cbn [repeat forallb]; [reflexivity|]. rewrite Hz, IH. reflexivity.
Qed.

(** ** Claims *)

(** C1: when the OS reports finite samples (as libc's load averages are),
    [GET /loadavg] runs [LoadAvg::new] and answers 200 with a JSON object
    with exactly the keys [last], [last5], [last15], each mapped to a
    number, the three fields of the [LoadAvg] read. *)
Theorem C1_get_loadavg_shape (w : world) :
  os_samples_ok PrimFloat.is_finite (w_os w) = true ->
  exists la, LoadAvg_new w = (Some la, w) /\
    dispatch main_rocket get_loadavg_req w =
    (Some {| status := 200; content_type := Some "application/json"%string;
             body := BJson (JObject [("last"%string, JNumber (last la));
                                     ("last5"%string, JNumber (last5 la));
                                     ("last15"%string, JNumber (last15 la))]) |}, w).
Proof.
  intros Hos. rewrite LoadAvg_new_spec. eexists; split; [reflexivity|].
  rewrite dispatch_get_loadavg, loadavg_spec.
  unfold Json_respond, LoadAvg_serialize, serialize_f64; simpl.
  rewrite !(sample_ok PrimFloat.is_finite (w_os w)) by (reflexivity || exact Hos).
  reflexivity.
Qed.

Lemma C1_get_loadavg_shape_witness :
  os_samples_ok PrimFloat.is_finite (Available [0.5%float; 0.75%float; 1.2%float]) = true /\
  exists la, LoadAvg_new (mk_world (Available [0.5%float; 0.75%float; 1.2%float])) =
               (Some la, mk_world (Available [0.5%float; 0.75%float; 1.2%float])) /\
    dispatch main_rocket get_loadavg_req (mk_world (Available [0.5%float; 0.75%float; 1.2%float])) =
    (Some {| status := 200; content_type := Some "application/json"%string;
             body := BJson (JObject [("last"%string, JNumber (last la));
                                     ("last5"%string, JNumber (last5 la));
                                     ("last15"%string, JNumber (last15 la))]) |},
     mk_world (Available [0.5%float; 0.75%float; 1.2%float])).
Proof.
  split; [vm_compute; reflexivity|].
  apply (C1_get_loadavg_shape (mk_world (Available [0.5%float; 0.75%float; 1.2%float]))).
  vm_compute; reflexivity.
Defined.

(** C2: for OS samples [a; b; c], [LoadAvg::new] yields [last = a],
    [last5 = b], [last15 = c] unchanged, and [GET /loadavg] serializes
    exactly them. *)
Theorem C2_fields_in_order (a b c : f64) :
  LoadAvg_new (mk_world (Available [a; b; c])) =
    (Some (mk_LoadAvg a b c), mk_world (Available [a; b; c])) /\
  dispatch main_rocket get_loadavg_req (mk_world (Available [a; b; c])) =
    (Some (Json_respond (LoadAvg_serialize (mk_LoadAvg a b c))),
     mk_world (Available [a; b; c])).
Proof.
  split; [apply LoadAvg_new_spec|].
  rewrite dispatch_get_loadavg, loadavg_spec. reflexivity.
Qed.

(** The scenario of the spec: samples [0.5; 0.75; 1.2] give the body
    {"last":0.5,"last5":0.75,"last15":1.2} with status 200. *)
Example scenario_0_5_0_75_1_2 :
  fst (dispatch main_rocket get_loadavg_req
         (mk_world (Available [0.5%float; 0.75%float; 1.2%float]))) =
  Some {| status := 200; content_type := Some "application/json"%string;
          body := BJson (JObject [("last"%string, JNumber 0.5%float);
                                  ("last5"%string, JNumber 0.75%float);
                                  ("last15"%string, JNumber 1.2%float)]) |}.
Proof. vm_compute. reflexivity. Qed.

(** C3 (counterexample): when the OS call fails, the handler does not
    answer with a server error: it answers 200. *)
Lemma C3_unsupported_is_200 :
  exists resp,
    fst (dispatch main_rocket get_loadavg_req (mk_world Unsupported)) = Some resp /\
    status resp = 200%Z /\ is_5xx resp = false.
Proof. eexists; split; [reflexivity|]. split; reflexivity. Qed.

(** C3 (amended): when the OS call fails, [LoadAvg::new] still returns a
    [LoadAvg], built from the zero-initialised buffer, and [GET /loadavg]
    answers 200 with {"last":0.0,"last5":0.0,"last15":0.0}; no error
    reaches the HTTP layer. *)
Theorem C3_unsupported_zero_200 :
  LoadAvg_new (mk_world Unsupported) =
    (Some (mk_LoadAvg zero zero zero), mk_world Unsupported) /\
  dispatch main_rocket get_loadavg_req (mk_world Unsupported) =
    (Some {| status := 200; content_type := Some "application/json"%string;
             body := BJson (JObject [("last"%string, JNumber zero);
                                     ("last5"%string, JNumber zero);
                                     ("last15"%string, JNumber zero)]) |},
     mk_world Unsupported).
Proof. split; reflexivity. Qed.

(** C4: when the OS writes fewer than three samples, the slots it did not
    write hold exactly [0.0], and the request still succeeds with 200:
    no error is reported. *)
Theorem C4_missing_samples_zero (s : list f64) :
  (List.length s < 3)%nat ->
  exists la,
    LoadAvg_new (mk_world (Available s)) = (Some la, mk_world (Available s)) /\
    (forall i, (List.length s <= i < 3)%nat -> nth_error (LoadAvg_fields la) i = Some zero) /\
    dispatch main_rocket get_loadavg_req (mk_world (Available s)) =
      (Some (Json_respond (LoadAvg_serialize la)), mk_world (Available s)).
Proof.
  intros Hs. rewrite LoadAvg_new_spec. eexists; split; [reflexivity|]. split.
  - intros i Hi. unfold LoadAvg_fields.
    destruct i as [|[|[|i]]]; cbn [nth_error last last5 last15 sample w_os].
    4: lia.
    all: rewrite nth_overflow; [reflexivity | unfold f64, c_double in *; lia].
  - rewrite dispatch_get_loadavg, loadavg_spec. reflexivity.
Qed.

Lemma C4_missing_samples_zero_witness :
  exists la,
    LoadAvg_new (mk_world (Available [0.5%float])) =
      (Some la, mk_world (Available [0.5%float])) /\
    (forall i, (List.length [0.5%float] <= i < 3)%nat ->
               nth_error (LoadAvg_fields la) i = Some zero) /\
    dispatch main_rocket get_loadavg_req (mk_world (Available [0.5%float])) =
      (Some (Json_respond (LoadAvg_serialize la)), mk_world (Available [0.5%float])).
Proof. apply (C4_missing_samples_zero [0.5%float]). simpl. lia. Defined.

(** C5 (counterexample): the OS may write a NaN or a negative value, and
    [LoadAvg::new] passes it through: the fields are then neither finite
    nor non-negative. *)
Lemma C5_unchecked_samples :
  exists la,
    fst (LoadAvg_new (mk_world (Available [nan; (-1)%float; zero]))) = Some la /\
    nonneg_finite (last la) = false /\ nonneg_finite (last5 la) = false.
Proof. eexists; split; [reflexivity|]. split; vm_compute; reflexivity. Qed.

(** C5 (amended): each field of the [LoadAvg] read is the sample the OS
    wrote in that slot ([getloadavg] is asked for 3, so it writes at most
    the first three the OS has), or [0.0] where it wrote none; so all
    three are finite and non-negative whenever the samples the OS wrote
    are.  The code itself checks nothing. *)
Theorem C5_nonneg_finite_if_os (w : world) :
  exists la, LoadAvg_new w = (Some la, w) /\
    LoadAvg_fields la =
      written_samples (w_os w) ++ repeat zero (3 - List.length (written_samples (w_os w))) /\
    (forallb nonneg_finite (written_samples (w_os w)) = true ->
     forallb nonneg_finite (LoadAvg_fields la) = true).
Proof.
  rewrite LoadAvg_new_spec. eexists; split; [reflexivity|].
  assert (E : LoadAvg_fields (mk_LoadAvg (sample (w_os w) 0) (sample (w_os w) 1)
                                         (sample (w_os w) 2)) =
              written_samples (w_os w) ++
              repeat zero (3 - List.length (written_samples (w_os w)))).
  { destruct w as [[|s]]; [reflexivity|].
    destruct s as [|a [|b [|c s]]]; reflexivity. }
  split; [exact E|].
  intros H. rewrite E, forallb_app, H. apply forallb_nonneg_finite_zeros.
Qed.

(** C6: [LoadAvg::new] is total and never reports an error: whatever the
    OS does it returns a [LoadAvg] (the FFI declaration drops libc's
    status), and when the OS call fails the fields are the buffer's
    initial zeros. *)
Theorem C6_new_total (w : world) :
  exists la, LoadAvg_new w = (Some la, w) /\
    (w_os w = Unsupported -> LoadAvg_fields la = [zero; zero; zero]).
Proof.
  rewrite LoadAvg_new_spec. eexists; split; [reflexivity|].
  intros H. rewrite H. reflexivity.
Qed.



(** An unrouted HEAD request is routed again as a GET, reaches the 404
    catcher, and its body is stripped. *)
Example head_unrouted_404_empty :
  fst (handle main_rocket (mk_HyperRequest "HEAD" (AbsolutePath "/nope")) (mk_world Unsupported)) =
  Some (strip_body not_found).
Proof. reflexivity. Qed.

(** C8: [LoadAvg::new] only reads the OS: for a fixed OS state two
    successive calls return equal values and leave the world unchanged. *)
Theorem C8_new_idempotent (w : world) :
  exists la, LoadAvg_new w = (Some la, w) /\
    (do a <- LoadAvg_new; do b <- LoadAvg_new; ret (a, b)) w = (Some (la, la), w).
Proof.
  eexists; split; [apply LoadAvg_new_spec|].
  unfold bind at 1. rewrite LoadAvg_new_spec.
  unfold bind. rewrite LoadAvg_new_spec. reflexivity.
Qed.

(** C9: no state survives a request: serving a sequence of requests
    leaves the world as it was, and each response is the one the request
    gets when handled alone. *)
Theorem C9_requests_independent (w : world) (reqs : list Request) :
  exists resps, serve main_rocket reqs w = (Some resps, w) /\
    Forall2 (fun req resp => dispatch main_rocket req w = (Some resp, w)) reqs resps.
Proof.
  induction reqs as [|r rs IH].
  - exists []; split; [reflexivity | constructor].
  - destruct IH as [resps [Hs Hf]].
    destruct (dispatch_main_total r w) as [resp Hr].
    exists (resp :: resps). split.
    + simpl. unfold bind at 1. rewrite Hr. unfold bind. rewrite Hs. reflexivity.
    + constructor; assumption.
Qed.

(** C10: the buffer handed to [getloadavg] has three elements and the
    length passed is 3, so libc writes within it and the buffer stays of
    length 3; the reads at indices 0, 1 and 2 never take the
    out-of-bounds branch: [LoadAvg::new] never panics. *)
Theorem C10_in_bounds (w : world) :
  (exists buf rc, getloadavg_c (w_os w) [zero; zero; zero] 3%Z = Some (buf, rc) /\
                  List.length buf = 3%nat) /\
  (forall buf, fst (getloadavg [zero; zero; zero] 3%Z w) = Some buf ->
     forall i, (i < 3)%nat -> nth_error buf i <> None) /\
  fst (LoadAvg_new w) <> None.
Proof.
  assert (Hc : exists buf rc, getloadavg_c (w_os w) [zero; zero; zero] 3%Z = Some (buf, rc) /\
                              List.length buf = 3%nat).
  { destruct w as [[|s]]; [do 2 eexists; split; reflexivity|].
    destruct s as [|a [|b [|c s]]]; do 2 eexists; split; reflexivity. }
  split; [exact Hc|]. split.
  - intros buf Hb i Hi. destruct Hc as [buf' [rc [Hc Hl]]].
    unfold getloadavg in Hb. rewrite Hc in Hb. simpl in Hb. injection Hb as <-.
    apply nth_error_Some. lia.
  - rewrite LoadAvg_new_spec. discriminate.
Qed.

(** ** Further properties of the code *)

(** Every answer of the server is a function of the three values
    [LoadAvg::new] reads, and leaves the world as it was. *)
Lemma dispatch_main_through_read (req : Request) :
  exists F : LoadAvg -> Response, forall w,
    dispatch main_rocket req w =
    (Some (F (mk_LoadAvg (sample (w_os w) 0) (sample (w_os w) 1) (sample (w_os w) 2))), w).
Proof.
  exists (fun la =>
    let r := if list_string_eqb ["loadavg"%string] (segments (req_path req)) &&
                (Method_eqb Get (req_method req) || Method_eqb (req_method req) Head)
             then Json_respond (LoadAvg_serialize la) else not_found in
    if Method_eqb (req_method req) Head then strip_body r else r).
  intros w. apply dispatch_main_spec.
Qed.

(** X1: [getloadavg] is asked for 3 samples, so when the OS has three or
    more, [LoadAvg::new] holds exactly the first three and ignores the
    rest. *)
Theorem X1_first_three_samples (s : list f64) :
  (3 <= List.length s)%nat ->
  exists la, LoadAvg_new (mk_world (Available s)) = (Some la, mk_world (Available s)) /\
             LoadAvg_fields la = firstn 3 s.
Proof.
  intros Hs. rewrite LoadAvg_new_spec. eexists; split; [reflexivity|].
  destruct s as [|a [|b [|c s]]]; simpl in *; try lia. reflexivity.
Qed.

Lemma X1_first_three_samples_witness :
  exists la,
    LoadAvg_new (mk_world (Available [0.5%float; 0.75%float; 1.2%float; 2.0%float])) =
      (Some la, mk_world (Available [0.5%float; 0.75%float; 1.2%float; 2.0%float])) /\
    LoadAvg_fields la = firstn 3 [0.5%float; 0.75%float; 1.2%float; 2.0%float].
Proof.
  apply (X1_first_three_samples [0.5%float; 0.75%float; 1.2%float; 2.0%float]).
  simpl. lia.
Defined.

(** X2: two OS states that agree on the three slots [LoadAvg::new] reads
    get the same answer to every request. *)
Theorem X2_answer_depends_on_three_slots (req : Request) (w1 w2 : world) :
  (forall i, (i < 3)%nat -> sample (w_os w1) i = sample (w_os w2) i) ->
  fst (dispatch main_rocket req w1) = fst (dispatch main_rocket req w2).
Proof.
  intros H. destruct (dispatch_main_through_read req) as [F HF].
  rewrite !HF. simpl. rewrite !H by lia. reflexivity.
Qed.

Lemma X2_answer_depends_on_three_slots_witness :
  fst (dispatch main_rocket get_loadavg_req
         (mk_world (Available [0.5%float; 0.75%float; 1.2%float; 9.0%float]))) =
  fst (dispatch main_rocket get_loadavg_req
         (mk_world (Available [0.5%float; 0.75%float; 1.2%float]))).
Proof.
  apply X2_answer_depends_on_three_slots.
  intros i Hi. destruct i as [|[|[|i]]]; [reflexivity..|lia].
Defined.

(** X3: a failed OS call cannot be told apart from a genuine zero load:
    whenever the OS's samples read as 0.0 in all three slots (including
    when it reports fewer samples), every request gets the same answer as
    when the OS call fails. *)
Theorem X3_failure_looks_like_zero_load (req : Request) (s : list f64) :
  (forall i, (i < 3)%nat -> nth i s zero = zero) ->
  fst (dispatch main_rocket req (mk_world (Available s))) =
  fst (dispatch main_rocket req (mk_world Unsupported)).
Proof.
  intros H. apply X2_answer_depends_on_three_slots. intros i Hi. simpl. apply H, Hi.
Qed.

Lemma X3_failure_looks_like_zero_load_witness :
  fst (dispatch main_rocket get_loadavg_req (mk_world (Available [zero]))) =
  fst (dispatch main_rocket get_loadavg_req (mk_world Unsupported)).
Proof.
  apply X3_failure_looks_like_zero_load.
  intros i Hi. destruct i as [|[|[|i]]]; [reflexivity..|lia].
Defined.

Lemma segments_aux_trailing_slash (s cur : string) :
  segments_aux (String.append s "/"%string) cur = segments_aux s cur.
Proof.
  revert cur. induction s as [|c s IH]; intros cur; simpl.
  - reflexivity.
  - destruct (Ascii.eqb c "/"%char); [destruct (String.eqb cur "")|]; rewrite ?IH; reflexivity.
Qed.

(** X4: the route is mounted by path segments, so a trailing slash changes
    nothing: any request on [p/] gets the answer of the same request on
    [p] (e.g. [GET /loadavg/] is served like [GET /loadavg]). *)
Theorem X4_trailing_slash (m : Method) (p : string) (w : world) :
  dispatch main_rocket (mk_Request m (String.append p "/"%string)) w =
  dispatch main_rocket (mk_Request m p) w.
Proof.
  unfold dispatch. cbn [req_method req_path]. unfold segments.
  rewrite segments_aux_trailing_slash. reflexivity.
Qed.
